(** * A verification development of gdshelpers/parts/spiral.py

    The Archimedean double spiral of gdshelpers: the closed-form arc length
    of one arm, the length functions of the output variants, the
    length-to-angle solver, the parametric arm and its derivative, and the
    [Spiral] class with its lazily generated waveguide.

    Numbers are modelled as real numbers ([R]): numpy's [sqrt], [log],
    [sin], [cos] and [pi] become [sqrt], [ln], [sin], [cos] and [PI].
    The arguments of the class that Python leaves untyped ([output_type],
    [winding_direction]) are modelled as Python values ([PyVal]). *)

From Stdlib Require Import Reals Psatz String List.
Import ListNotations.
Open Scope R_scope.
Open Scope bool_scope.

(** ** Python values and the operations the module applies to them *)

(** The Python values that reach [output_type] and [winding_direction]. *)
Inductive PyVal : Type :=
| PyStr (s : string)
| PyFloat (x : R)
| PyInt (z : Z)
| PyBool (b : bool)
| PyNone.

(** Exceptions.  The module itself raises none; [TypeError] is what
    Python's [+] raises on a float and a non-number.  [InvalidParameterError]
    is the error kind the specification names; nothing in the module
    raises it. *)
Inductive PyExc : Type :=
| TypeError
| InvalidParameterError (param : string).

Inductive result (A : Type) : Type :=
| Ok (x : A)
| Err (e : PyExc).
Arguments Ok {A} x.
Arguments Err {A} e.

(** [v == "s"] for a string literal: only a string with the same
    characters compares equal; numbers and [None] never do. *)
Definition py_eq_str (v : PyVal) (s : string) : bool :=
  match v with
  | PyStr s' => String.eqb s' s
  | _ => false
  end.

(** [x + v] for a float [x]: a number (bool and int included, as Python
    treats them as ints) is added; a string or [None] raises [TypeError]. *)
Definition py_add_float (x : R) (v : PyVal) : result R :=
  match v with
  | PyFloat y => Ok (x + y)
  | PyInt z => Ok (x + IZR z)
  | PyBool b => Ok (x + if b then 1 else 0)
  | PyStr _ | PyNone => Err TypeError
  end.

(** ** Arc length (lines 6-19) *)

Definition _arc_length_indefinite_integral (theta a b : R) : R :=
  sqrt (Rsqr (a + b * theta) + Rsqr b) * (a + b * theta) / (2 * b) +
  0.5 * b * ln (sqrt (Rsqr (a + b * theta) + Rsqr b) + a + b * theta).

Definition _arc_length_integral (theta a b : R) : R :=
  _arc_length_indefinite_integral theta a b - _arc_length_indefinite_integral 0 a b.

(** ** Length functions of the output variants (lines 21-33) *)

Definition _spiral_length_angle (theta a b out_angle : R) : R :=
  _arc_length_integral theta a b +      (* Inward spiral *)
  PI * a +                              (* Two semi-circles in the center *)
  _arc_length_integral (theta + out_angle) a b.  (* Outward spiral *)

Definition _spiral_length_inline (theta a b : R) : R :=
  _spiral_length_angle theta a b (0.5 * PI) +
  0.5 * PI * (0.5 * a) +
  ((a + b * theta) - (0.5 * a)).

Definition _spiral_length_inline_rel (theta a b : R) : R :=
  _spiral_length_inline theta a b -
  (a + b * (theta + 0.5 * PI) + (0.5 * a)).

(** ** The length function chosen per output type and its call (lines 35-45, 126-135) *)

(** A Python value used as a number: ints and bools are numbers; a string
    or [None] is not, and any arithmetic on it raises [TypeError]. *)
Definition py_float_of (v : PyVal) : result R :=
  match v with
  | PyFloat y => Ok y
  | PyInt z => Ok (IZR z)
  | PyBool b => Ok (if b then 1 else 0)
  | PyStr _ | PyNone => Err TypeError
  end.

(** The list [length_fn] of [make_at_port_with_length]: a three-argument
    length function, or [_spiral_length_angle] with its extra argument. *)
Inductive LengthFn : Type :=
| LenFn3 (f : R -> R -> R -> R)
| LenAngle (out_angle : PyVal).

(** [length_function(x, a, b, *args)]: with a non-number [out_angle],
    [theta + out_angle] inside [_spiral_length_angle] raises [TypeError]. *)
Definition call_length_fn (lf : LengthFn) (x a b : R) : result R :=
  match lf with
  | LenFn3 f => Ok (f x a b)
  | LenAngle v =>
      match py_float_of v with
      | Ok phi => Ok (_spiral_length_angle x a b phi)
      | Err e => Err e
      end
  end.

Definition is_single (output_type : PyVal) : bool :=
  py_eq_str output_type "single_inside" || py_eq_str output_type "single_outside".

Definition length_fn_of (output_type : PyVal) : LengthFn :=
  if py_eq_str output_type "inline" then LenFn3 _spiral_length_inline
  else if py_eq_str output_type "inline_rel" then LenFn3 _spiral_length_inline_rel
  else if py_eq_str output_type "opposite" then LenAngle (PyInt 0)
  else if is_single output_type then LenFn3 _arc_length_integral
  else LenAngle output_type.

(** ** Ports, the parametric arm and the waveguide operations *)

Record Port : Type := mkPort {
  port_origin : R * R;
  port_angle : R;
  port_width : R
}.

(** [_spiral_out_path] (lines 47-50), at a scalar [t]: the broadcast
    column [np.array([0, direction*a])[:, None]] is added to the point. *)
Definition _spiral_out_path (t a b max_theta min_theta theta_offset direction : R) : R * R :=
  let theta := min_theta + t * (max_theta - min_theta) in
  let r := a + b * theta in
  (r * sin (theta + theta_offset) + 0,
   r * (- direction * cos (theta + theta_offset)) + direction * a).

(** [_d_spiral_out_path] (lines 52-55), at a scalar [t]. *)
Definition _d_spiral_out_path (t a b max_theta min_theta theta_offset direction : R) : R * R :=
  let theta := min_theta + t * (max_theta - min_theta) in
  let r := a + b * theta in
  (r * cos (theta + theta_offset), r * (direction * sin (theta + theta_offset))).

(** The calls the module makes on a [Waveguide] (gdshelpers.parts.waveguide):
    each appends one segment. *)
Inductive WgOp : Type :=
| AddParameterizedPath (path : R -> R * R) (path_derivative : R -> R * R)
    (sample_distance : R) (sample_points : Z)
| AddBend (angle radius : R)
| AddStraightSegment (length : R).

(** A waveguide as the port it starts at and the segments appended to it,
    in order. *)
Record Waveguide : Type := mkWaveguide {
  wg_start : Port;
  wg_ops : list WgOp
}.

Definition Waveguide_make_at_port (p : Port) : Waveguide := mkWaveguide p [].

Definition wg_add (w : Waveguide) (op : WgOp) : Waveguide :=
  mkWaveguide (wg_start w) (wg_ops w ++ [op]).

(** ** The class [Spiral] (lines 58-183) *)

(** The attributes of a [Spiral] instance; [_wg] is [None] until the
    waveguide has been generated. *)
Record Spiral : Type := mkSpiral {
  _origin_port : Port;
  gap : R;
  min_bend_radius : R;
  total_theta : R;
  _wg : option Waveguide;
  sample_points : Z;
  sample_distance : R;
  output_type : PyVal;
  winding_direction : R;
  out_theta : R
}.

(** [Spiral.__init__] (lines 83-112).  Only the last branch can raise: the
    addition [self.total_theta + self.output_type]. *)
Definition Spiral_init (origin : R * R) (angle width gap_ min_bend_radius_ theta : R)
    (output_type_ winding_direction_ : PyVal) (sample_distance_ : R)
    (sample_points_ : Z) : result Spiral :=
  let wd := if py_eq_str winding_direction_ "left" then -1 else 1 in
  let out :=
    if py_eq_str output_type_ "inline" || py_eq_str output_type_ "inline_rel"
    then Ok (theta + 0.5 * PI)
    else if py_eq_str output_type_ "opposite" then Ok theta
    else if py_eq_str output_type_ "single_inside" || py_eq_str output_type_ "single_outside"
    then Ok theta
    else py_add_float theta output_type_ in
  match out with
  | Err e => Err e
  | Ok ot =>
      Ok {| _origin_port := mkPort origin angle width;
            gap := gap_;
            min_bend_radius := min_bend_radius_;
            total_theta := theta;
            _wg := None;
            sample_points := sample_points_;
            sample_distance := sample_distance_;
            output_type := output_type_;
            winding_direction := wd;
            out_theta := ot |}
  end.

(** The keyword arguments [make_at_port] and [make_at_port_with_length]
    pass on to the constructor, with the constructor's defaults
    ([winding_direction='right'], [sample_distance=0.50],
    [sample_points=100]). *)
Record SpiralKwargs : Type := mkKwargs {
  kw_winding_direction : PyVal;
  kw_sample_distance : R;
  kw_sample_points : Z
}.

Definition default_kwargs : SpiralKwargs := mkKwargs (PyStr "right") 0.50 100.

(** [Spiral.make_at_port] (lines 114-122): the port supplies origin, angle
    and width, the keyword arguments the rest. *)
Definition Spiral_make_at_port (port : Port) (gap_ min_bend_radius_ theta : R)
    (output_type_ : PyVal) (kw : SpiralKwargs) : result Spiral :=
  Spiral_init (port_origin port) (port_angle port) (port_width port) gap_
    min_bend_radius_ theta output_type_ (kw_winding_direction kw)
    (kw_sample_distance kw) (kw_sample_points kw).

Section Solver.

(** [scipy.optimize.fsolve], seen through [float(...)]: given a function
    and a seed, the point it returns.  It is a parameter of the
    development: no claim depends on which root it finds. *)
Variable fsolve : (R -> R) -> R -> R.

(** The function handed to [fsolve]:
    [lambda x: length_function(x, a, b, *args) - length]. *)
Definition solver_objective (lf : LengthFn) (length a b : R) (x : R) : R :=
  match call_length_fn lf x a b with
  | Ok y => y - length
  | Err _ => 0   (* not reached: the call at the seed raised first *)
  end.

(** [_spiral_theta] (lines 35-45).  [fsolve] evaluates the function first
    at the seed [20*pi]; an exception raised there propagates.  Whether the
    call raises does not depend on [x] (it depends on the length function
    only), so the seed decides it. *)
Definition _spiral_theta (length wg_width gap_ min_bend_radius_ : R) (lf : LengthFn)
    : result R :=
  let a := 2 * min_bend_radius_ in
  let b := 2 * (wg_width + gap_) / (2 * PI) in
  match call_length_fn lf (20 * PI) a b with
  | Err e => Err e
  | Ok _ => Ok (fsolve (solver_objective lf length a b) (20 * PI))
  end.

(** [Spiral.make_at_port_with_length] (lines 124-138). *)
Definition Spiral_make_at_port_with_length (port : Port) (gap_ min_bend_radius_ target_length : R)
    (output_type_ : PyVal) (kw : SpiralKwargs) : result Spiral :=
  match _spiral_theta target_length (port_width port) gap_ min_bend_radius_
          (length_fn_of output_type_) with
  | Err e => Err e
  | Ok theta => Spiral_make_at_port port gap_ min_bend_radius_ theta output_type_ kw
  end.

End Solver.

(** [Spiral.width] (lines 140-142). *)
Definition Spiral_width (s : Spiral) : R := port_width (_origin_port s).

(** The waveguide [Spiral._generate] (lines 158-180) builds, from the
    attributes of the instance. *)
Definition generate_wg (s : Spiral) : Waveguide :=
  let a := 2 * min_bend_radius s in
  let b := 2 * (Spiral_width s + gap s) / (2 * PI) in
  let outer_r := a + b * total_theta s in
  let wd := winding_direction s in
  let w0 := Waveguide_make_at_port (_origin_port s) in
  let w1 :=
    if negb (py_eq_str (output_type s) "single_outside") then
      wg_add w0 (AddParameterizedPath
        (fun x => let p := _spiral_out_path (1 - x) a b (total_theta s) 0 (- total_theta s) wd in
                  (- fst p - wd * 0, - snd p - wd * (- a + outer_r)))
        (fun x => _d_spiral_out_path (1 - x) a b (total_theta s) 0 (- total_theta s) wd)
        (sample_distance s) (sample_points s))
    else w0 in
  let w2 :=
    if negb (py_eq_str (output_type s) "single_inside") &&
       negb (py_eq_str (output_type s) "single_outside") then
      wg_add (wg_add w1 (AddBend (- wd * PI) (min_bend_radius s)))
             (AddBend (wd * PI) (min_bend_radius s))
    else w1 in
  let w3 :=
    if negb (py_eq_str (output_type s) "single_inside") then
      wg_add w2 (AddParameterizedPath
        (fun x => _spiral_out_path x a b (out_theta s) 0 0 wd)
        (fun x => _d_spiral_out_path x a b (out_theta s) 0 0 wd)
        (sample_distance s) (sample_points s))
    else w2 in
  if py_eq_str (output_type s) "inline" || py_eq_str (output_type s) "inline_rel" then
    wg_add (wg_add w3 (AddStraightSegment (outer_r - min_bend_radius s)))
           (AddBend (- 0.5 * wd * PI) (min_bend_radius s))
  else w3.

(** [Spiral._generate]: stores the generated waveguide in [_wg]. *)
Definition _generate (s : Spiral) : Spiral :=
  {| _origin_port := _origin_port s; gap := gap s; min_bend_radius := min_bend_radius s;
     total_theta := total_theta s; _wg := Some (generate_wg s);
     sample_points := sample_points s; sample_distance := sample_distance s;
     output_type := output_type s; winding_direction := winding_direction s;
     out_theta := out_theta s |}.

(** Modelled from the spec: the truth value of a [Waveguide] instance
    (class [Waveguide] of gdshelpers/parts/waveguide.py, not part of this
    source tree), which the test [if not self._wg] of [Spiral.wg] reads.
    The spec's realized path, once computed, stays cached for the lifetime
    of the instance: a waveguide is a true value. *)
Definition waveguide_truthy (w : Waveguide) : bool := true.

(** Python's [not self._wg]: [None] is false. *)
Definition py_not_wg (o : option Waveguide) : bool :=
  match o with
  | None => true
  | Some w => negb (waveguide_truthy w)
  end.

(** [Spiral.wg] (lines 144-148), threading the instance: it returns the
    waveguide and the instance after the call. *)
Definition Spiral_wg (s : Spiral) : Waveguide * Spiral :=
  let s' := if py_not_wg (_wg s) then _generate s else s in
  match _wg s' with
  | Some w => (w, s')
  | None => (generate_wg s, s')   (* not reached: [_generate] sets [_wg] *)
  end.

Section Accessors.

(** The waveguide's own accessors, from gdshelpers.parts.waveguide (the
    path renderer, outside this module): its length, its current port and
    its shapely geometry. *)
Variable Waveguide_length : Waveguide -> R.
Variable Waveguide_current_port : Waveguide -> Port.
Variable Shape : Type.
Variable Waveguide_get_shapely_object : Waveguide -> Shape.

Inductive Accessor : Type :=
| AccWg | AccLength | AccOutPort | AccGeometry.

Inductive AccValue : Type :=
| VWg (w : Waveguide)
| VLength (l : R)
| VPort (p : Port)
| VGeometry (g : Shape).

(** What each accessor reads off the waveguide. *)
Definition read_wg (acc : Accessor) (w : Waveguide) : AccValue :=
  match acc with
  | AccWg => VWg w
  | AccLength => VLength (Waveguide_length w)
  | AccOutPort => VPort (Waveguide_current_port w)
  | AccGeometry => VGeometry (Waveguide_get_shapely_object w)
  end.

(** [Spiral.wg], [Spiral.length] (lines 150-152), [Spiral.out_port]
    (lines 154-156) and [Spiral.get_shapely_object] (lines 182-183): each
    goes through [Spiral.wg]. *)
Definition run_accessor (acc : Accessor) (s : Spiral) : AccValue * Spiral :=
  let (w, s') := Spiral_wg s in (read_wg acc w, s').

(** A sequence of accessor calls on one instance. *)
Fixpoint run_accessors (accs : list Accessor) (s : Spiral) : list AccValue * Spiral :=
  match accs with
  | [] => ([], s)
  | acc :: rest =>
      let (v, s1) := run_accessor acc s in
      let (vs, s2) := run_accessors rest s1 in
      (v :: vs, s2)
  end.

End Accessors.

(** The tangent as the specification words it (PathSampler, 4.4):
    [r(theta) * (cos(theta+phi0), dir*sin(theta+phi0)) * (theta_max - theta_min)];
    compared below with [_d_spiral_out_path]. *)
Definition spec_tangent (t a b max_theta min_theta theta_offset direction : R) : R * R :=
  let theta := min_theta + t * (max_theta - min_theta) in
  let r := a + b * theta in
  (r * cos (theta + theta_offset) * (max_theta - min_theta),
   r * (direction * sin (theta + theta_offset)) * (max_theta - min_theta)).

(** ** Named forms of the arms of [Spiral._generate] *)

(** The path function of the inbound arm (line 165). *)
Definition inbound_path (s : Spiral) (x : R) : R * R :=
  let a := 2 * min_bend_radius s in
  let b := 2 * (Spiral_width s + gap s) / (2 * PI) in
  let outer_r := a + b * total_theta s in
  let wd := winding_direction s in
  let p := _spiral_out_path (1 - x) a b (total_theta s) 0 (- total_theta s) wd in
  (- fst p - wd * 0, - snd p - wd * (- a + outer_r)).

(** The derivative function of the inbound arm (line 166). *)
Definition inbound_derivative (s : Spiral) (x : R) : R * R :=
  let a := 2 * min_bend_radius s in
  let b := 2 * (Spiral_width s + gap s) / (2 * PI) in
  _d_spiral_out_path (1 - x) a b (total_theta s) 0 (- total_theta s) (winding_direction s).

(** The path function of the outbound arm (line 174). *)
Definition outbound_path (s : Spiral) (x : R) : R * R :=
  let a := 2 * min_bend_radius s in
  let b := 2 * (Spiral_width s + gap s) / (2 * PI) in
  _spiral_out_path x a b (out_theta s) 0 0 (winding_direction s).

(** The derivative function of the outbound arm (line 175). *)
Definition outbound_derivative (s : Spiral) (x : R) : R * R :=
  let a := 2 * min_bend_radius s in
  let b := 2 * (Spiral_width s + gap s) / (2 * PI) in
  _d_spiral_out_path x a b (out_theta s) 0 0 (winding_direction s).

(** Reflection about the launch axis (the local x axis). *)
Definition mirror_pt (p : R * R) : R * R := (fst p, - snd p).

(** [op2] is the reflection of [op1] about the launch axis: path and
    derivative reflected, bend angles negated, straight segments kept. *)
Definition op_mirror (op1 op2 : WgOp) : Prop :=
  match op1, op2 with
  | AddParameterizedPath f d sd sp, AddParameterizedPath f' d' sd' sp' =>
      (forall x, f' x = mirror_pt (f x)) /\ (forall x, d' x = mirror_pt (d x)) /\
      sd' = sd /\ sp' = sp
  | AddBend ang r, AddBend ang' r' => ang' = - ang /\ r' = r
  | AddStraightSegment l, AddStraightSegment l' => l' = l
  | _, _ => False
  end.

(** Modelled from the spec: the length of the bends and straight segments
    a [Waveguide] is given ([Waveguide.add_bend], [add_straight_segment] of
    gdshelpers/parts/waveguide.py, not part of this source tree): a bend by
    [angle] of radius [radius] is a circular arc of length
    [|angle| * radius]; a straight segment has its given length.  Parametric
    paths are not counted here. *)
Definition fixed_segment_length (op : WgOp) : R :=
  match op with
  | AddParameterizedPath _ _ _ _ => 0
  | AddBend angle radius => Rabs angle * radius
  | AddStraightSegment length => length
  end.

Definition fixed_segments_length (ops : list WgOp) : R :=
  fold_right (fun op acc => fixed_segment_length op + acc) 0 ops.

(** The turning angle of a bend segment; other segments do not turn. *)
Definition bend_angle (op : WgOp) : R :=
  match op with
  | AddBend angle _ => angle
  | _ => 0
  end.

Definition bend_angle_sum (ops : list WgOp) : R :=
  fold_right (fun op acc => bend_angle op + acc) 0 ops.

(** The radius of every bend is [min_bend_radius]; every straight segment is
    at least [min_bend_radius] long. *)
Definition segment_bounds (mbr : R) (op : WgOp) : Prop :=
  match op with
  | AddBend _ radius => radius = mbr
  | AddStraightSegment length => mbr <= length
  | AddParameterizedPath _ _ _ _ => True
  end.

(** ** Helpers *)

(** The five output types the module names. *)
Definition recognised_tag (v : PyVal) : bool :=
  py_eq_str v "inline" || py_eq_str v "inline_rel" || py_eq_str v "opposite" ||
  py_eq_str v "single_inside" || py_eq_str v "single_outside".

(** The instance with another winding direction, all else equal. *)
Definition set_winding_direction (s : Spiral) (wd : R) : Spiral :=
  {| _origin_port := _origin_port s; gap := gap s; min_bend_radius := min_bend_radius s;
     total_theta := total_theta s; _wg := _wg s;
     sample_points := sample_points s; sample_distance := sample_distance s;
     output_type := output_type s; winding_direction := wd;
     out_theta := out_theta s |}.

Lemma py_eq_str_true (v : PyVal) (s : string) :
  py_eq_str v s = true <-> v = PyStr s.
Proof.
  destruct v; simpl; split; intro H; try discriminate.
  - apply String.eqb_eq in H; subst; reflexivity.
  - inversion H; subst; apply String.eqb_refl.
Qed.

Lemma half_PI : 0.5 * PI = PI / 2.
Proof. lra. Qed.

Lemma half_a (a : R) : 0.5 * a = a / 2.
Proof. lra. Qed.

(** ** Arc length: monotonicity and derivative *)

Lemma hyp_root_facts (r b : R) : 0 < b ->
  0 < sqrt (Rsqr r + Rsqr b) /\
  sqrt (Rsqr r + Rsqr b) * sqrt (Rsqr r + Rsqr b) = r * r + b * b /\
  r < sqrt (Rsqr r + Rsqr b) /\ - r < sqrt (Rsqr r + Rsqr b).
Proof.
  intro Hb. unfold Rsqr.
  assert (Hp : 0 < r * r + b * b) by nra.
  pose proof (sqrt_lt_R0 _ Hp) as H0.
  pose proof (sqrt_sqrt _ (Rlt_le _ _ Hp)) as H1.
  set (s := sqrt (r * r + b * b)) in *.
  repeat split; try assumption; nra.
Qed.

Lemma hyp_sum_increasing (r1 r2 b : R) : 0 < b -> r1 < r2 ->
  sqrt (Rsqr r1 + Rsqr b) + r1 < sqrt (Rsqr r2 + Rsqr b) + r2.
Proof.
  intros Hb Hr.
  destruct (hyp_root_facts r1 b Hb) as (P1 & E1 & L1 & M1).
  destruct (hyp_root_facts r2 b Hb) as (P2 & E2 & L2 & M2).
  set (s1 := sqrt (Rsqr r1 + Rsqr b)) in *.
  set (s2 := sqrt (Rsqr r2 + Rsqr b)) in *.
  destruct (Rlt_or_le (s1 + r1) (s2 + r2)) as [H|H]; [assumption|exfalso].
  assert (Hd : (s1 - s2) * (s1 + s2) = (r1 - r2) * (r1 + r2)) by nra.
  nra.
Qed.

Lemma hyp_prod_increasing (r1 r2 b : R) : 0 < b -> r1 < r2 ->
  sqrt (Rsqr r1 + Rsqr b) * r1 < sqrt (Rsqr r2 + Rsqr b) * r2.
Proof.
  intros Hb Hr.
  destruct (hyp_root_facts r1 b Hb) as (P1 & E1 & L1 & M1).
  destruct (hyp_root_facts r2 b Hb) as (P2 & E2 & L2 & M2).
  set (s1 := sqrt (Rsqr r1 + Rsqr b)) in *.
  set (s2 := sqrt (Rsqr r2 + Rsqr b)) in *.
  destruct (Rle_or_lt 0 r1) as [H1|H1].
  - assert (s1 < s2) by nra. nra.
  - destruct (Rle_or_lt r2 0) as [H2|H2].
    + assert (s2 < s1) by nra. nra.
    + nra.
Qed.
Lemma indefinite_integral_increasing (a b t1 t2 : R) : 0 < b -> t1 < t2 ->
  _arc_length_indefinite_integral t1 a b < _arc_length_indefinite_integral t2 a b.
Proof.
  intros Hb Ht. unfold _arc_length_indefinite_integral.
  assert (Hr : a + b * t1 < a + b * t2) by nra.
  rewrite !Rplus_assoc with (r1 := sqrt _) (r2 := a).
  set (r1 := a + b * t1) in *. set (r2 := a + b * t2) in *.
  pose proof (hyp_prod_increasing r1 r2 b Hb Hr) as HP.
  pose proof (hyp_sum_increasing r1 r2 b Hb Hr) as HS.
  destruct (hyp_root_facts r1 b Hb) as (_ & _ & _ & M1).
  assert (HL : ln (sqrt (Rsqr r1 + Rsqr b) + r1) < ln (sqrt (Rsqr r2 + Rsqr b) + r2)).
  { apply ln_increasing; [lra | exact HS]. }
  assert (Hq : sqrt (Rsqr r1 + Rsqr b) * r1 / (2 * b) < sqrt (Rsqr r2 + Rsqr b) * r2 / (2 * b)).
  { unfold Rdiv. apply Rmult_lt_compat_r; [apply Rinv_0_lt_compat; lra | exact HP]. }
  nra.
Qed.

Lemma dpl_l (f : R -> R) (x l l' : R) :
  derivable_pt_lim f x l -> l = l' -> derivable_pt_lim f x l'.
Proof. intros H ->; exact H. Qed.

Lemma dpl_plus (f g : R -> R) (x lf lg : R) :
  derivable_pt_lim f x lf -> derivable_pt_lim g x lg ->
  derivable_pt_lim (fun t => f t + g t) x (lf + lg).
Proof.
  intros Hf Hg. apply (derivable_pt_lim_ext (f + g)%F); [reflexivity|].
  apply derivable_pt_lim_plus; assumption.
Qed.

Lemma dpl_mult (f g : R -> R) (x lf lg : R) :
  derivable_pt_lim f x lf -> derivable_pt_lim g x lg ->
  derivable_pt_lim (fun t => f t * g t) x (lf * g x + f x * lg).
Proof.
  intros Hf Hg. apply (derivable_pt_lim_ext (f * g)%F); [reflexivity|].
  apply derivable_pt_lim_mult; assumption.
Qed.

Lemma dpl_const (c x : R) : derivable_pt_lim (fun _ => c) x 0.
Proof. apply derivable_pt_lim_const. Qed.

Lemma dpl_id (x : R) : derivable_pt_lim (fun t => t) x 1.
Proof. apply derivable_pt_lim_id. Qed.

Lemma dpl_comp (f g : R -> R) (x lf lg : R) :
  derivable_pt_lim f x lf -> derivable_pt_lim g (f x) lg ->
  derivable_pt_lim (fun t => g (f t)) x (lg * lf).
Proof.
  intros Hf Hg. apply (derivable_pt_lim_ext (comp g f)); [reflexivity|].
  apply derivable_pt_lim_comp; assumption.
Qed.

Lemma dpl_affine (a b x : R) : derivable_pt_lim (fun t => a + b * t) x b.
Proof.
  eapply dpl_l.
  - apply dpl_plus; [apply dpl_const | apply dpl_mult; [apply dpl_const | apply dpl_id]].
  - cbv beta. ring.
Qed.

Lemma dpl_hyp_root (a b x : R) : 0 < b ->
  derivable_pt_lim (fun t => sqrt (Rsqr (a + b * t) + Rsqr b)) x
    ((a + b * x) * b / sqrt (Rsqr (a + b * x) + Rsqr b)).
Proof.
  intro Hb.
  destruct (hyp_root_facts (a + b * x) b Hb) as (P & E & _ & _).
  assert (Hq : 0 < Rsqr (a + b * x) + Rsqr b) by (unfold Rsqr; nra).
  eapply dpl_l.
  - apply (dpl_comp (fun t => Rsqr (a + b * t) + Rsqr b) sqrt).
    + apply dpl_plus; [|apply dpl_const].
      apply (dpl_comp (fun t => a + b * t) Rsqr); [apply dpl_affine | apply derivable_pt_lim_Rsqr].
    + apply derivable_pt_lim_sqrt. exact Hq.
  - cbv beta. field. lra.
Qed.

Lemma indefinite_integral_derivative (a b x : R) : 0 < b ->
  derivable_pt_lim (fun t => _arc_length_indefinite_integral t a b) x
    (sqrt (Rsqr (a + b * x) + Rsqr b)).
Proof.
  intro Hb.
  destruct (hyp_root_facts (a + b * x) b Hb) as (P & E & L & M).
  set (s := sqrt (Rsqr (a + b * x) + Rsqr b)) in *.
  unfold _arc_length_indefinite_integral. unfold Rdiv.
  eapply dpl_l.
  - apply dpl_plus.
    + apply (dpl_mult (fun t => sqrt (Rsqr (a + b * t) + Rsqr b) * (a + b * t)) (fun _ => / (2 * b))).
      * apply dpl_mult; [apply dpl_hyp_root; exact Hb | apply dpl_affine].
      * apply dpl_const.
    + apply (dpl_mult (fun _ => 0.5 * b)).
      * apply dpl_const.
      * apply (dpl_comp (fun t => sqrt (Rsqr (a + b * t) + Rsqr b) + a + b * t) ln).
        -- apply dpl_plus; [apply dpl_plus; [apply dpl_hyp_root; exact Hb | apply dpl_const] | ].
           apply dpl_mult; [apply dpl_const | apply dpl_id].
        -- apply derivable_pt_lim_ln. simpl. fold s. lra.
  - simpl. fold s. unfold Rdiv.
    replace (s + a + b * x) with (s + (a + b * x)) by ring.
    set (r := a + b * x) in *. unfold Rsqr in E.
    transitivity ((r * r + b * b + s * s) / (2 * s)).
    + replace 0.5 with (/ 2) by lra. field. repeat split; lra.
    + rewrite <- E. field. lra.
Qed.


Lemma dpl_minus (f g : R -> R) (x lf lg : R) :
  derivable_pt_lim f x lf -> derivable_pt_lim g x lg ->
  derivable_pt_lim (fun t => f t - g t) x (lf - lg).
Proof.
  intros Hf Hg. apply (derivable_pt_lim_ext (f - g)%F); [reflexivity|].
  apply derivable_pt_lim_minus; assumption.
Qed.

Lemma arc_length_increasing_all (a b t1 t2 : R) : 0 < b -> t1 < t2 ->
  _arc_length_integral t1 a b < _arc_length_integral t2 a b.
Proof.
  intros Hb Ht. unfold _arc_length_integral.
  pose proof (indefinite_integral_increasing a b t1 t2 Hb Ht). lra.
Qed.

Lemma length_angle_increasing (a b phi t1 t2 : R) : 0 < b -> t1 < t2 ->
  _spiral_length_angle t1 a b phi < _spiral_length_angle t2 a b phi.
Proof.
  intros Hb Ht. unfold _spiral_length_angle.
  pose proof (arc_length_increasing_all a b t1 t2 Hb Ht).
  pose proof (arc_length_increasing_all a b (t1 + phi) (t2 + phi) Hb ltac:(lra)).
  lra.
Qed.

Lemma length_inline_increasing (a b t1 t2 : R) : 0 < b -> t1 < t2 ->
  _spiral_length_inline t1 a b < _spiral_length_inline t2 a b.
Proof.
  intros Hb Ht. unfold _spiral_length_inline.
  pose proof (length_angle_increasing a b (0.5 * PI) t1 t2 Hb Ht). nra.
Qed.

Lemma length_inline_rel_increasing (a b t1 t2 : R) : 0 < b -> t1 < t2 ->
  _spiral_length_inline_rel t1 a b < _spiral_length_inline_rel t2 a b.
Proof.
  intros Hb Ht. unfold _spiral_length_inline_rel, _spiral_length_inline.
  pose proof (length_angle_increasing a b (0.5 * PI) t1 t2 Hb Ht). lra.
Qed.

(** Every length function [make_at_port_with_length] can select is
    strictly increasing in [theta] (on all of [R], as soon as [b > 0]). *)
Lemma selected_length_increasing (tag : PyVal) (a b t1 t2 y1 y2 : R) :
  0 < b -> t1 < t2 ->
  call_length_fn (length_fn_of tag) t1 a b = Ok y1 ->
  call_length_fn (length_fn_of tag) t2 a b = Ok y2 -> y1 < y2.
Proof.
  intros Hb Ht.
  unfold length_fn_of.
  destruct (py_eq_str tag "inline");
    [simpl; intros E1 E2; injection E1 as <-; injection E2 as <-;
     apply length_inline_increasing; assumption|].
  destruct (py_eq_str tag "inline_rel");
    [simpl; intros E1 E2; injection E1 as <-; injection E2 as <-;
     apply length_inline_rel_increasing; assumption|].
  destruct (py_eq_str tag "opposite");
    [simpl; intros E1 E2; injection E1 as <-; injection E2 as <-;
     apply length_angle_increasing; assumption|].
  destruct (is_single tag);
    [simpl; intros E1 E2; injection E1 as <-; injection E2 as <-;
     apply arc_length_increasing_all; assumption|].
  simpl. destruct (py_float_of tag); [|discriminate].
  intros E1 E2; injection E1 as <-; injection E2 as <-.
  apply length_angle_increasing; assumption.
Qed.

Lemma arc_length_derivative (a b c x : R) : 0 < b ->
  derivable_pt_lim (fun t => _arc_length_integral (t + c) a b) x
    (sqrt (Rsqr (a + b * (x + c)) + Rsqr b)).
Proof.
  intro Hb. unfold _arc_length_integral.
  eapply dpl_l.
  - apply dpl_minus; [|apply dpl_const].
    apply (dpl_comp (fun t => t + c) (fun t => _arc_length_indefinite_integral t a b)).
    + apply dpl_plus; [apply dpl_id | apply dpl_const].
    + apply indefinite_integral_derivative; exact Hb.
  - cbv beta. ring.
Qed.

Lemma arc_length_derivable (a b c x : R) : 0 < b ->
  exists l, derivable_pt_lim (fun t => _arc_length_integral (t + c) a b) x l.
Proof. intro Hb. eexists. apply arc_length_derivative; exact Hb. Qed.

Lemma length_angle_derivable (a b phi x : R) : 0 < b ->
  exists l, derivable_pt_lim (fun t => _spiral_length_angle t a b phi) x l.
Proof.
  intro Hb.
  destruct (arc_length_derivable a b 0 x Hb) as [l1 H1].
  destruct (arc_length_derivable a b phi x Hb) as [l2 H2].
  eexists. unfold _spiral_length_angle.
  apply dpl_plus; [apply dpl_plus; [|apply dpl_const]|exact H2].
  apply (derivable_pt_lim_ext (fun t => _arc_length_integral (t + 0) a b));
    [intro; rewrite Rplus_0_r; reflexivity | exact H1].
Qed.

Lemma length_inline_derivable (a b x : R) : 0 < b ->
  exists l, derivable_pt_lim (fun t => _spiral_length_inline t a b) x l.
Proof.
  intro Hb. destruct (length_angle_derivable a b (0.5 * PI) x Hb) as [l H].
  eexists. unfold _spiral_length_inline.
  apply dpl_plus; [apply dpl_plus; [exact H | apply dpl_const]|].
  apply dpl_minus; [apply dpl_affine | apply dpl_const].
Qed.

Lemma length_inline_rel_derivable (a b x : R) : 0 < b ->
  exists l, derivable_pt_lim (fun t => _spiral_length_inline_rel t a b) x l.
Proof.
  intro Hb. destruct (length_inline_derivable a b x Hb) as [l H].
  eexists. unfold _spiral_length_inline_rel.
  apply (dpl_minus (fun t => _spiral_length_inline t a b)); [exact H|].
  apply dpl_plus; [|apply dpl_const].
  apply dpl_plus; [apply dpl_const|].
  apply dpl_mult; [apply dpl_const|].
  apply dpl_plus; [apply dpl_id | apply dpl_const].
Qed.

Lemma continuity_of_derivable (f : R -> R) (x : R) :
  (exists l, derivable_pt_lim f x l) -> continuity_pt f x.
Proof.
  intros [l H]. apply derivable_continuous_pt. exists l. exact H.
Qed.

(** The function the solver is given is continuous for every output type. *)
Lemma solver_objective_continuous (tag : PyVal) (L a b x : R) : 0 < b ->
  continuity_pt (solver_objective (length_fn_of tag) L a b) x.
Proof.
  intro Hb. apply continuity_of_derivable.
  unfold solver_objective, length_fn_of.
  destruct (py_eq_str tag "inline");
    [simpl; destruct (length_inline_derivable a b x Hb) as [l H];
     exists (l - 0); apply dpl_minus; [exact H | apply dpl_const]|].
  destruct (py_eq_str tag "inline_rel");
    [simpl; destruct (length_inline_rel_derivable a b x Hb) as [l H];
     exists (l - 0); apply dpl_minus; [exact H | apply dpl_const]|].
  destruct (py_eq_str tag "opposite");
    [simpl; destruct (length_angle_derivable a b 0 x Hb) as [l H];
     exists (l - 0); apply dpl_minus; [exact H | apply dpl_const]|].
  destruct (is_single tag).
  - simpl. destruct (arc_length_derivable a b 0 x Hb) as [l H].
    exists (l - 0); apply dpl_minus; [|apply dpl_const].
    apply (derivable_pt_lim_ext (fun t => _arc_length_integral (t + 0) a b));
      [intro; rewrite Rplus_0_r; reflexivity | exact H].
  - simpl. destruct (py_float_of tag) as [phi|e].
    + destruct (length_angle_derivable a b phi x Hb) as [l H].
      exists (l - 0); apply dpl_minus; [exact H | apply dpl_const].
    + exists 0. apply dpl_const.
Qed.

Lemma dpl_sin (f : R -> R) (x l : R) :
  derivable_pt_lim f x l -> derivable_pt_lim (fun t => sin (f t)) x (cos (f x) * l).
Proof. intro H. apply (dpl_comp f sin); [exact H | apply derivable_pt_lim_sin]. Qed.

Lemma dpl_cos (f : R -> R) (x l : R) :
  derivable_pt_lim f x l -> derivable_pt_lim (fun t => cos (f t)) x (- sin (f x) * l).
Proof. intro H. apply (dpl_comp f cos); [exact H | apply derivable_pt_lim_cos]. Qed.

Lemma dpl_arm_angle (min_theta max_theta c x : R) :
  derivable_pt_lim (fun t => min_theta + t * (max_theta - min_theta) + c) x
    (max_theta - min_theta).
Proof.
  eapply dpl_l.
  - apply dpl_plus; [apply dpl_plus; [apply dpl_const|] | apply dpl_const].
    apply (dpl_mult (fun t => t)); [apply dpl_id | apply dpl_const].
  - cbv beta. ring.
Qed.

Lemma dpl_arm_radius (a b min_theta max_theta x : R) :
  derivable_pt_lim (fun t => a + b * (min_theta + t * (max_theta - min_theta))) x
    (b * (max_theta - min_theta)).
Proof.
  eapply dpl_l.
  - apply dpl_plus; [apply dpl_const|].
    apply dpl_mult; [apply dpl_const|].
    apply (dpl_plus (fun _ => min_theta)); [apply dpl_const|].
    apply (dpl_mult (fun t => t)); [apply dpl_id | apply dpl_const].
  - cbv beta. ring.
Qed.

Lemma Spiral_init_no_cache (origin : R * R) (angle width gap_ mbr theta : R)
    (ot wd : PyVal) (sd : R) (sp : Z) (s : Spiral) :
  Spiral_init origin angle width gap_ mbr theta ot wd sd sp = Ok s -> _wg s = None.
Proof.
  unfold Spiral_init. cbv zeta.
  match goal with
  | |- (match ?m with Ok _ => _ | Err _ => _ end = _ -> _) => destruct m
  end; [|discriminate].
  intro H. injection H as <-. reflexivity.
Qed.

Section AccessorLemmas.
Variable Waveguide_length : Waveguide -> R.
Variable Waveguide_current_port : Waveguide -> Port.
Variable Shape : Type.
Variable Waveguide_get_shapely_object : Waveguide -> Shape.

Let read := read_wg Waveguide_length Waveguide_current_port Shape Waveguide_get_shapely_object.
Let run1 := run_accessor Waveguide_length Waveguide_current_port Shape Waveguide_get_shapely_object.
Let run := run_accessors Waveguide_length Waveguide_current_port Shape Waveguide_get_shapely_object.

Lemma run_accessor_cached (acc : Accessor) (s : Spiral) (w : Waveguide) :
  _wg s = Some w -> run1 acc s = (read acc w, s).
Proof.
  intro H. unfold run1, run_accessor, Spiral_wg. rewrite H. simpl. rewrite H. reflexivity.
Qed.

Lemma run_accessor_fresh (acc : Accessor) (s : Spiral) :
  _wg s = None -> run1 acc s = (read acc (generate_wg s), _generate s).
Proof.
  intro H. unfold run1, run_accessor, Spiral_wg. rewrite H. reflexivity.
Qed.

Lemma run_accessors_cached (accs : list Accessor) (s : Spiral) (w : Waveguide) :
  _wg s = Some w -> run accs s = (map (fun acc => read acc w) accs, s).
Proof.
  intro H. induction accs as [|acc rest IH]; [reflexivity|].
  unfold run. simpl. fold run1.
  rewrite (run_accessor_cached acc s w H).
  fold run. rewrite IH. reflexivity.
Qed.

Lemma run_accessors_fresh (accs : list Accessor) (s : Spiral) :
  _wg s = None ->
  run accs s =
    (map (fun acc => read acc (generate_wg s)) accs,
     match accs with [] => s | _ :: _ => _generate s end).
Proof.
  intro H. destruct accs as [|acc rest]; [reflexivity|].
  unfold run. simpl. fold run1.
  rewrite (run_accessor_fresh acc s H).
  fold run. rewrite (run_accessors_cached rest (_generate s) (generate_wg s) eq_refl).
  reflexivity.
Qed.

End AccessorLemmas.

(** Case analysis on the string comparisons [output_type == "..."]. *)
Ltac split_string_tests :=
  repeat match goal with
         | |- context [String.eqb ?x ?y] => destruct (String.eqb x y) eqn:?
         end.

(** ** Small evaluations *)

Example length_fn_of_opposite : length_fn_of (PyStr "opposite") = LenAngle (PyInt 0).
Proof. reflexivity. Qed.

Example length_fn_of_angle : length_fn_of (PyFloat 1) = LenAngle (PyFloat 1).
Proof. reflexivity. Qed.

Example init_bad_tag :
  Spiral_init (0, 0) 0 1 5 35 10 (PyStr "foo") (PyStr "right") 0.50 100 = Err TypeError.
Proof. reflexivity. Qed.

Example init_left :
  option_map winding_direction
    (match Spiral_init (0, 0) 0 1 5 35 10 (PyStr "opposite") (PyStr "left") 0.50 100 with
     | Ok s => Some s | Err _ => None end) = Some (-1).
Proof. reflexivity. Qed.

(** ** Claims *)

(** C1: the length function of the [opposite] output is
    [arc_length(theta) + pi*a + arc_length(theta + delta)] with [delta = 0];
    a numeric output type [phi] selects the same function with [delta = phi]. *)
Theorem opposite_length_formula (theta a b delta phi : R) :
  _spiral_length_angle theta a b delta =
    _arc_length_integral theta a b + PI * a + _arc_length_integral (theta + delta) a b /\
  call_length_fn (length_fn_of (PyStr "opposite")) theta a b =
    Ok (_spiral_length_angle theta a b 0) /\
  call_length_fn (length_fn_of (PyFloat phi)) theta a b =
    Ok (_spiral_length_angle theta a b phi).
Proof.
  split; [reflexivity|]. split.
  - simpl. reflexivity.
  - reflexivity.
Qed.

(** C5: the [inline_rel] length function is the [inline] one minus the
    direct path [a + b*(theta + pi/2) + a/2]. *)
Theorem inline_rel_is_inline_minus_direct (theta a b : R) :
  call_length_fn (length_fn_of (PyStr "inline")) theta a b =
    Ok (_spiral_length_inline theta a b) /\
  call_length_fn (length_fn_of (PyStr "inline_rel")) theta a b =
    Ok (_spiral_length_inline theta a b - (a + b * (theta + PI / 2) + a / 2)) /\
  _spiral_length_inline theta a b - _spiral_length_inline_rel theta a b =
    a + b * (theta + PI / 2) + a / 2.
Proof.
  split; [reflexivity|]. split.
  - simpl. unfold _spiral_length_inline_rel. rewrite half_PI, half_a. reflexivity.
  - unfold _spiral_length_inline_rel. rewrite half_PI, half_a. ring.
Qed.

(** C6: the definite arc length vanishes at [theta = 0] (for every [a] and
    [b], so in particular for [a, b > 0]). *)
Theorem arc_length_at_zero (a b : R) : _arc_length_integral 0 a b = 0.
Proof. unfold _arc_length_integral. ring. Qed.

(** C8: the winding angle of the outbound arm: [theta] for [opposite],
    [single_inside] and [single_outside], [theta + pi/2] for [inline] and
    [inline_rel], [theta + phi] for a numeric output type [phi]. *)
Theorem out_theta_by_output_type (origin : R * R) (angle width gap_ mbr theta phi : R)
    (wd : PyVal) (sd : R) (sp : Z) :
  (exists s, Spiral_init origin angle width gap_ mbr theta (PyStr "opposite") wd sd sp = Ok s
             /\ out_theta s = theta) /\
  (exists s, Spiral_init origin angle width gap_ mbr theta (PyStr "single_inside") wd sd sp = Ok s
             /\ out_theta s = theta) /\
  (exists s, Spiral_init origin angle width gap_ mbr theta (PyStr "single_outside") wd sd sp = Ok s
             /\ out_theta s = theta) /\
  (exists s, Spiral_init origin angle width gap_ mbr theta (PyStr "inline") wd sd sp = Ok s
             /\ out_theta s = theta + PI / 2) /\
  (exists s, Spiral_init origin angle width gap_ mbr theta (PyStr "inline_rel") wd sd sp = Ok s
             /\ out_theta s = theta + PI / 2) /\
  (exists s, Spiral_init origin angle width gap_ mbr theta (PyFloat phi) wd sd sp = Ok s
             /\ out_theta s = theta + phi).
Proof.
  repeat split; eexists; (split; [reflexivity|]); simpl;
    rewrite ?half_PI; reflexivity.
Qed.

(** C10: any [winding_direction] other than the string ["left"] gives the
    direction [+1] and leaves construction as it is with ["left"] (same
    success or the same error, and the same instance up to the direction);
    ["left"] gives [-1].  With a recognised output type construction
    succeeds. *)
Theorem winding_direction_right_unless_left (origin : R * R) (angle width gap_ mbr theta : R)
    (ot v : PyVal) (sd : R) (sp : Z) :
  v <> PyStr "left" ->
  match Spiral_init origin angle width gap_ mbr theta ot v sd sp,
        Spiral_init origin angle width gap_ mbr theta ot (PyStr "left") sd sp with
  | Ok s, Ok s' =>
      winding_direction s = 1 /\ winding_direction s' = -1 /\
      s = set_winding_direction s' 1
  | Err e, Err e' => e = e'
  | _, _ => False
  end /\
  (exists s, Spiral_init origin angle width gap_ mbr theta (PyStr "opposite") v sd sp = Ok s
             /\ winding_direction s = 1).
Proof.
  intro Hv.
  assert (Hf : py_eq_str v "left" = false).
  { destruct (py_eq_str v "left") eqn:E; [|reflexivity].
    apply py_eq_str_true in E. contradiction. }
  split.
  - unfold Spiral_init. rewrite Hf. simpl.
    destruct (_ || _)%bool; [repeat split; reflexivity|].
    destruct (py_eq_str ot "opposite"); [repeat split; reflexivity|].
    destruct (_ || _)%bool; [repeat split; reflexivity|].
    destruct (py_add_float theta ot); repeat split; reflexivity.
  - eexists. split; [unfold Spiral_init; rewrite Hf; reflexivity|]. reflexivity.
Qed.

(** C7: for [a, b > 0] the arc length is strictly increasing in [theta] on
    [theta >= 0]; the length function of every output type is then strictly
    increasing, and the function handed to the solver is continuous. *)
Theorem arc_length_strictly_increasing (a b : R) :
  0 < a -> 0 < b ->
  (forall t1 t2, 0 <= t1 -> t1 < t2 ->
     _arc_length_integral t1 a b < _arc_length_integral t2 a b) /\
  (forall tag t1 t2 y1 y2, 0 <= t1 -> t1 < t2 ->
     call_length_fn (length_fn_of tag) t1 a b = Ok y1 ->
     call_length_fn (length_fn_of tag) t2 a b = Ok y2 -> y1 < y2) /\
  (forall tag L x, continuity_pt (solver_objective (length_fn_of tag) L a b) x).
Proof.
  intros Ha Hb. split; [|split].
  - intros t1 t2 _ Ht. apply arc_length_increasing_all; assumption.
  - intros tag t1 t2 y1 y2 _ Ht. apply selected_length_increasing; assumption.
  - intros tag L x. apply solver_objective_continuous; assumption.
Qed.

Lemma arc_length_strictly_increasing_witness :
  0 < 70 /\ 0 < 2 /\
  _arc_length_integral 1 70 2 < _arc_length_integral 2 70 2.
Proof.
  split; [lra|]. split; [lra|].
  apply (proj1 (arc_length_strictly_increasing 70 2 ltac:(lra) ltac:(lra)) 1 2);
    lra.
Defined.

Lemma winding_direction_right_unless_left_witness :
  PyStr "Left" <> PyStr "left" /\
  (exists s, Spiral_init (0, 0) 0 1 5 35 10 (PyStr "opposite") (PyStr "Left") 0.50 100 = Ok s
             /\ winding_direction s = 1).
Proof.
  split; [discriminate|].
  apply (proj2 (winding_direction_right_unless_left (0, 0) 0 1 5 35 10
                  (PyStr "opposite") (PyStr "Left") 0.50 100 ltac:(discriminate))).
Defined.

(** C2 (as stated): [_d_spiral_out_path] does not carry the factor
    [theta_max - theta_min]: at [t = 0], [a = b = 1], [theta_max = 2],
    [theta_min = 0], no phase offset, [direction = 1] it returns [(1, 0)]
    where the stated formula gives [(2, 0)]. *)
Lemma d_spiral_out_path_chain_factor_counterexample :
  _d_spiral_out_path 0 1 1 2 0 0 1 <> spec_tangent 0 1 1 2 0 0 1.
Proof.
  unfold _d_spiral_out_path, spec_tangent. intro H.
  apply (f_equal fst) in H. simpl in H.
  replace (0 + 0 * (2 - 0) + 0) with 0 in H by ring.
  rewrite cos_0 in H. lra.
Qed.

(** C2 (amended): [_d_spiral_out_path] returns
    [r(theta) * (cos(theta+phi0), direction*sin(theta+phi0))], with no factor
    [theta_max - theta_min]; the derivative in [t] of [_spiral_out_path] is
    [(theta_max - theta_min)] times that vector plus
    [b * (sin(theta+phi0), -direction*cos(theta+phi0))]. *)
Theorem d_spiral_out_path_value_and_derivative
    (t a b max_theta min_theta theta_offset direction : R) :
  let theta := min_theta + t * (max_theta - min_theta) in
  let r := a + b * theta in
  _d_spiral_out_path t a b max_theta min_theta theta_offset direction =
    (r * cos (theta + theta_offset), direction * r * sin (theta + theta_offset)) /\
  derivable_pt_lim
    (fun u => fst (_spiral_out_path u a b max_theta min_theta theta_offset direction)) t
    ((max_theta - min_theta) *
       (fst (_d_spiral_out_path t a b max_theta min_theta theta_offset direction) +
        b * sin (theta + theta_offset))) /\
  derivable_pt_lim
    (fun u => snd (_spiral_out_path u a b max_theta min_theta theta_offset direction)) t
    ((max_theta - min_theta) *
       (snd (_d_spiral_out_path t a b max_theta min_theta theta_offset direction) +
        b * (- direction * cos (theta + theta_offset)))).
Proof.
  intros theta r. split; [|split].
  - unfold _d_spiral_out_path. fold theta. fold r. f_equal. ring.
  - unfold _spiral_out_path, _d_spiral_out_path. simpl fst.
    eapply dpl_l.
    + apply dpl_plus; [|apply dpl_const].
      apply (dpl_mult (fun u => a + b * (min_theta + u * (max_theta - min_theta)))
                      (fun u => sin (min_theta + u * (max_theta - min_theta) + theta_offset))).
      * apply dpl_arm_radius.
      * apply dpl_sin, dpl_arm_angle.
    + cbv beta. fold theta. fold r. ring.
  - unfold _spiral_out_path, _d_spiral_out_path. simpl snd.
    eapply dpl_l.
    + apply dpl_plus; [|apply dpl_const].
      apply (dpl_mult (fun u => a + b * (min_theta + u * (max_theta - min_theta)))
                      (fun u => - direction * cos (min_theta + u * (max_theta - min_theta) + theta_offset))).
      * apply dpl_arm_radius.
      * apply dpl_mult; [apply dpl_const|]. apply dpl_cos, dpl_arm_angle.
    + cbv beta. fold theta. fold r. ring.
Qed.

(** C3 (as stated): [make_at_port_with_length] checks none of its
    parameters.  Whatever point the solver returns (here: a solver that
    returns its seed), a negative target length, [width + gap = 0] and
    [min_bend_radius = 0] each give a spiral, not an error. *)
Lemma make_with_length_invalid_inputs_accepted :
  (exists s, Spiral_make_at_port_with_length (fun _ x0 => x0) (mkPort (0, 0) 0 1)
               5 35 (-1) (PyStr "opposite") default_kwargs = Ok s) /\
  (exists s, Spiral_make_at_port_with_length (fun _ x0 => x0) (mkPort (0, 0) 0 1)
               (-1) 35 2000 (PyStr "opposite") default_kwargs = Ok s) /\
  (exists s, Spiral_make_at_port_with_length (fun _ x0 => x0) (mkPort (0, 0) 0 1)
               5 0 2000 (PyStr "opposite") default_kwargs = Ok s).
Proof. repeat split; eexists; reflexivity. Qed.

(** C3 (amended): for every target length, width, gap and minimum bend
    radius, [make_at_port_with_length] builds a spiral whose [total_theta] is
    the solver's point for [length_function(x, a, b) - target_length]; it
    raises only [TypeError], exactly when the output type is neither one of
    the five names nor a number. *)
Theorem make_with_length_no_validation (fsolve : (R -> R) -> R -> R) (port : Port)
    (gap_ mbr L : R) (tag : PyVal) (kw : SpiralKwargs) :
  let a := 2 * mbr in
  let b := 2 * (port_width port + gap_) / (2 * PI) in
  match Spiral_make_at_port_with_length fsolve port gap_ mbr L tag kw with
  | Ok s => total_theta s = fsolve (solver_objective (length_fn_of tag) L a b) (20 * PI)
  | Err e => e = TypeError /\ recognised_tag tag = false /\ py_float_of tag = Err TypeError
  end /\
  ((exists s, Spiral_make_at_port_with_length fsolve port gap_ mbr L tag kw = Ok s) <->
   (recognised_tag tag = true \/ exists phi, py_float_of tag = Ok phi)).
Proof.
  intros a b.
  destruct tag as [str|x|z|bo|];
    unfold Spiral_make_at_port_with_length, _spiral_theta, Spiral_make_at_port, Spiral_init,
      recognised_tag, length_fn_of, is_single, call_length_fn; simpl;
    try split_string_tests; simpl;
    (split;
     [ try reflexivity; repeat split; reflexivity
     | split;
       [ intros [s H]; try discriminate;
         first [left; reflexivity | right; eexists; reflexivity]
       | intros [H|[phi H]]; try discriminate; eexists; reflexivity ] ]).
Qed.

(** C4 (as stated): an unrecognised string output type is not rejected by
    a check of the tag: the constructor adds it to [total_theta], and the
    addition raises Python's [TypeError]; [make_at_port_with_length] fails
    the same way (in the call of the length function at the solver's seed). *)
Lemma unrecognised_tag_type_error :
  Spiral_init (0, 0) 0 1 5 35 10 (PyStr "Opposite") (PyStr "right") 0.50 100 = Err TypeError /\
  Spiral_make_at_port_with_length (fun _ x0 => x0) (mkPort (0, 0) 0 1) 5 35 2000
    (PyStr "Opposite") default_kwargs = Err TypeError.
Proof. split; reflexivity. Qed.

(** C4 (amended): an output type that is none of the five names is used as
    a number: the constructor adds it to [total_theta].  A number (a bool
    included) becomes the angle offset, [out_theta = theta + phi]; any other
    value (a string, [None]) makes the constructor and
    [make_at_port_with_length] raise [TypeError]. *)
Theorem unrecognised_tag_used_as_number (fsolve : (R -> R) -> R -> R)
    (origin : R * R) (angle width gap_ mbr theta L : R) (tag wd : PyVal)
    (sd : R) (sp : Z) (kw : SpiralKwargs) :
  recognised_tag tag = false ->
  match py_float_of tag with
  | Ok phi =>
      exists s, Spiral_init origin angle width gap_ mbr theta tag wd sd sp = Ok s /\
                out_theta s = theta + phi
  | Err e =>
      e = TypeError /\
      Spiral_init origin angle width gap_ mbr theta tag wd sd sp = Err TypeError /\
      Spiral_make_at_port_with_length fsolve (mkPort origin angle width) gap_ mbr L tag kw
        = Err TypeError
  end.
Proof.
  intro Hr.
  destruct tag as [str|x|z|bo|].
  - unfold recognised_tag in Hr. simpl in Hr.
    repeat rewrite Bool.orb_false_iff in Hr.
    destruct Hr as [[[[H1 H2] H3] H4] H5].
    simpl. split; [reflexivity|].
    unfold Spiral_init, Spiral_make_at_port_with_length, _spiral_theta, length_fn_of,
      is_single, call_length_fn. simpl.
    rewrite H1, H2, H3, H4, H5. simpl. split; reflexivity.
  - simpl. eexists. split; reflexivity.
  - simpl. eexists. split; reflexivity.
  - simpl. eexists. split; reflexivity.
  - simpl. repeat split.
Qed.

Lemma unrecognised_tag_used_as_number_witness :
  recognised_tag (PyStr "Opposite") = false /\
  Spiral_init (0, 0) 0 1 5 35 10 (PyStr "Opposite") (PyStr "right") 0.50 100 = Err TypeError.
Proof.
  split; [reflexivity|].
  apply (proj1 (proj2 (unrecognised_tag_used_as_number (fun _ x0 => x0) (0, 0) 0 1 5 35 10 2000
           (PyStr "Opposite") (PyStr "right") 0.50 100 default_kwargs eq_refl))).
Defined.

(** C9: on an instance made by the constructor, any sequence of accessor
    calls ([wg], [length], [out_port], [get_shapely_object]) reads every
    value off the one waveguide [generate_wg s]; afterwards the instance is
    unchanged if no accessor ran, and otherwise it is [_generate s], with
    every other attribute as before; and on an instance whose waveguide is
    cached, an accessor returns the cached waveguide's value and leaves the
    instance as it is. *)
Theorem spiral_wg_generated_once
    (Waveguide_length : Waveguide -> R) (Waveguide_current_port : Waveguide -> Port)
    (Shape : Type) (Waveguide_get_shapely_object : Waveguide -> Shape)
    (origin : R * R) (angle width gap_ mbr theta : R) (ot wd : PyVal) (sd : R) (sp : Z)
    (s : Spiral) (accs : list Accessor) :
  Spiral_init origin angle width gap_ mbr theta ot wd sd sp = Ok s ->
  let run := run_accessors Waveguide_length Waveguide_current_port Shape
               Waveguide_get_shapely_object in
  let read := read_wg Waveguide_length Waveguide_current_port Shape
               Waveguide_get_shapely_object in
  fst (run accs s) = map (fun acc => read acc (generate_wg s)) accs /\
  snd (run accs s) = match accs with [] => s | _ :: _ => _generate s end /\
  (forall acc s1 w, _wg s1 = Some w ->
     run_accessor Waveguide_length Waveguide_current_port Shape
       Waveguide_get_shapely_object acc s1 = (read acc w, s1)).
Proof.
  intros Hinit run read.
  pose proof (Spiral_init_no_cache _ _ _ _ _ _ _ _ _ _ _ Hinit) as Hnone.
  pose proof (run_accessors_fresh Waveguide_length Waveguide_current_port Shape
                Waveguide_get_shapely_object accs s Hnone) as Hrun.
  fold run in Hrun. fold read in Hrun.
  rewrite Hrun. simpl. split; [reflexivity|]. split; [reflexivity|].
  intros acc s1 w H. apply run_accessor_cached. exact H.
Qed.

Lemma spiral_wg_generated_once_witness :
  exists s,
    Spiral_init (0, 0) 0 1 5 35 10 (PyStr "opposite") (PyStr "right") 0.50 100 = Ok s /\
    snd (run_accessors (fun _ => 0) wg_start unit (fun _ => tt) [AccLength; AccWg] s)
      = _generate s.
Proof.
  eexists. split; [reflexivity|].
  apply (proj1 (proj2 (spiral_wg_generated_once (fun _ => 0) wg_start unit (fun _ => tt)
           (0, 0) 0 1 5 35 10 (PyStr "opposite") (PyStr "right") 0.50 100 _
           [AccLength; AccWg] eq_refl))).
Defined.

(** ** Further properties of the module *)

Lemma recognised_tag_false (v : PyVal) :
  recognised_tag v = false ->
  py_eq_str v "inline" = false /\ py_eq_str v "inline_rel" = false /\
  py_eq_str v "opposite" = false /\ py_eq_str v "single_inside" = false /\
  py_eq_str v "single_outside" = false.
Proof.
  unfold recognised_tag. intro H.
  repeat rewrite Bool.orb_false_iff in H. tauto.
Qed.

(** The segments [Spiral._generate] appends, per output type: one arm for
    the single variants; inbound arm, the two centre bends and outbound arm
    for [opposite] and a numeric output type; the same followed by a
    straight segment and a quarter bend for [inline] and [inline_rel]. *)
Theorem generate_wg_segments (s : Spiral) :
  let a := 2 * min_bend_radius s in
  let b := 2 * (Spiral_width s + gap s) / (2 * PI) in
  let outer_r := a + b * total_theta s in
  let wd := winding_direction s in
  let inbound := AddParameterizedPath (inbound_path s) (inbound_derivative s)
                   (sample_distance s) (sample_points s) in
  let outbound := AddParameterizedPath (outbound_path s) (outbound_derivative s)
                    (sample_distance s) (sample_points s) in
  let centre := [AddBend (- wd * PI) (min_bend_radius s); AddBend (wd * PI) (min_bend_radius s)] in
  wg_start (generate_wg s) = _origin_port s /\
  (output_type s = PyStr "single_inside" -> wg_ops (generate_wg s) = [inbound]) /\
  (output_type s = PyStr "single_outside" -> wg_ops (generate_wg s) = [outbound]) /\
  (output_type s = PyStr "opposite" \/ recognised_tag (output_type s) = false ->
     wg_ops (generate_wg s) = inbound :: centre ++ [outbound]) /\
  (output_type s = PyStr "inline" \/ output_type s = PyStr "inline_rel" ->
     wg_ops (generate_wg s) =
       inbound :: centre ++
       [outbound; AddStraightSegment (outer_r - min_bend_radius s);
        AddBend (- 0.5 * wd * PI) (min_bend_radius s)]).
Proof.
  intros a b outer_r wd inbound outbound centre.
  split.
  { unfold generate_wg.
    destruct (py_eq_str (output_type s) "single_outside"),
      (py_eq_str (output_type s) "single_inside"), (py_eq_str (output_type s) "inline"),
      (py_eq_str (output_type s) "inline_rel"); reflexivity. }
  split; [intro H; unfold generate_wg; rewrite H; reflexivity|].
  split; [intro H; unfold generate_wg; rewrite H; reflexivity|].
  split.
  - intros [H|H]; [unfold generate_wg; rewrite H; reflexivity|].
    destruct (recognised_tag_false _ H) as (H1 & H2 & H3 & H4 & H5).
    unfold generate_wg. rewrite H1, H2, H4, H5. reflexivity.
  - intros [H|H]; unfold generate_wg; rewrite H; reflexivity.
Qed.

Lemma Spiral_init_wd_sq (origin : R * R) (angle width gap_ mbr theta : R)
    (ot wd : PyVal) (sd : R) (sp : Z) (s : Spiral) :
  Spiral_init origin angle width gap_ mbr theta ot wd sd sp = Ok s ->
  winding_direction s * winding_direction s = 1.
Proof.
  unfold Spiral_init. cbv zeta.
  match goal with
  | |- (match ?m with Ok _ => _ | Err _ => _ end = _ -> _) => destruct m
  end; [|discriminate].
  intro H. injection H as <-. simpl.
  destruct (py_eq_str wd "left"); ring.
Qed.

Lemma sin_cos_sq_weighted (r w phi : R) :
  w * w = 1 -> Rsqr (r * sin phi) + Rsqr (r * w * cos phi) = Rsqr r.
Proof.
  intro Hw.
  transitivity (Rsqr r * (Rsqr (sin phi) + w * w * Rsqr (cos phi))).
  - unfold Rsqr. ring.
  - rewrite Hw, Rmult_1_l, sin2_cos2. ring.
Qed.

Lemma cos_sin_sq_weighted (r w phi : R) :
  w * w = 1 -> Rsqr (r * cos phi) + Rsqr (r * w * sin phi) = Rsqr r.
Proof.
  intro Hw.
  transitivity (Rsqr r * (Rsqr (cos phi) + w * w * Rsqr (sin phi))).
  - unfold Rsqr. ring.
  - rewrite Hw, Rmult_1_l, Rplus_comm, sin2_cos2. ring.
Qed.

(** Both arms start at the origin of their local frame (the port they are
    appended at) heading along the local x axis: the inbound arm's path
    function is [(0, 0)] at [x = 0] with derivative [(outer_r, 0)], the
    outbound arm's is [(0, 0)] with derivative [(a, 0)]. *)
Theorem arms_start_at_port (s : Spiral) :
  let a := 2 * min_bend_radius s in
  let b := 2 * (Spiral_width s + gap s) / (2 * PI) in
  let outer_r := a + b * total_theta s in
  inbound_path s 0 = (0, 0) /\ inbound_derivative s 0 = (outer_r, 0) /\
  outbound_path s 0 = (0, 0) /\ outbound_derivative s 0 = (a, 0).
Proof.
  intros a b outer_r.
  unfold inbound_path, inbound_derivative, outbound_path, outbound_derivative,
    _spiral_out_path, _d_spiral_out_path.
  fold a. fold b. fold outer_r. simpl fst. simpl snd.
  replace (0 + (1 - 0) * (total_theta s - 0) + - total_theta s) with 0 by ring.
  replace (0 + 0 * (out_theta s - 0) + 0) with 0 by ring.
  replace (0 + (1 - 0) * (total_theta s - 0)) with (total_theta s) by ring.
  replace (0 + 0 * (out_theta s - 0)) with 0 by ring.
  rewrite sin_0, cos_0. fold outer_r.
  repeat split; f_equal; unfold outer_r; ring.
Qed.

(** The outbound arm of a constructed spiral is an Archimedean spiral about
    the centre [(0, wd*a)]: at parameter [x] its point lies at distance
    [r = a + b*theta] from the centre, [theta = x * out_theta]; its
    derivative function is perpendicular to the radius and has length [r];
    and one full turn adds [2*(width + gap)] to the radius. *)
Theorem outbound_arm_geometry (origin : R * R) (angle width gap_ mbr theta : R)
    (ot wdv : PyVal) (sd : R) (sp : Z) (s : Spiral) (x : R) :
  Spiral_init origin angle width gap_ mbr theta ot wdv sd sp = Ok s ->
  let a := 2 * min_bend_radius s in
  let b := 2 * (Spiral_width s + gap s) / (2 * PI) in
  let wd := winding_direction s in
  let th := 0 + x * (out_theta s - 0) in
  let r := a + b * th in
  let p := outbound_path s x in
  let d := outbound_derivative s x in
  Rsqr (fst p - 0) + Rsqr (snd p - wd * a) = Rsqr r /\
  fst d * (fst p - 0) + snd d * (snd p - wd * a) = 0 /\
  Rsqr (fst d) + Rsqr (snd d) = Rsqr r /\
  (a + b * (th + 2 * PI)) - r = 2 * (width + gap_).
Proof.
  intros Hinit a b wd th r p d.
  pose proof (Spiral_init_wd_sq _ _ _ _ _ _ _ _ _ _ _ Hinit) as Hw. fold wd in Hw.
  assert (Hs : Spiral_width s = width /\ gap s = gap_).
  { revert Hinit. unfold Spiral_init. cbv zeta.
    match goal with
    | |- (match ?m with Ok _ => _ | Err _ => _ end = _ -> _) => destruct m
    end; [|discriminate].
    intro H. injection H as <-. split; reflexivity. }
  unfold p, d, outbound_path, outbound_derivative, _spiral_out_path, _d_spiral_out_path.
  fold a. fold b. fold wd. fold th. fold r. simpl fst. simpl snd.
  set (phi := th + 0).
  split; [|split; [|split]].
  - replace (r * sin phi + 0 - 0) with (r * sin phi) by ring.
    replace (r * (- wd * cos phi) + wd * a - wd * a) with (r * (- wd) * cos phi) by ring.
    apply sin_cos_sq_weighted. lra.
  - transitivity (r * r * sin phi * cos phi * (1 - wd * wd)); [ring|].
    rewrite Hw. ring.
  - replace (r * (wd * sin phi)) with (r * wd * sin phi) by ring.
    apply cos_sin_sq_weighted. exact Hw.
  - unfold r, b. destruct Hs as [-> ->].
    pose proof PI_RGT_0. field. lra.
Qed.

(** The inbound arm of a constructed spiral is an Archimedean spiral about
    the centre [(0, -wd*outer_r)]: at parameter [x] its point lies at
    distance [r = a + b*theta], [theta = (1 - x) * total_theta]; its
    derivative function is perpendicular to the radius and has length [r]. *)
Theorem inbound_arm_geometry (origin : R * R) (angle width gap_ mbr theta : R)
    (ot wdv : PyVal) (sd : R) (sp : Z) (s : Spiral) (x : R) :
  Spiral_init origin angle width gap_ mbr theta ot wdv sd sp = Ok s ->
  let a := 2 * min_bend_radius s in
  let b := 2 * (Spiral_width s + gap s) / (2 * PI) in
  let outer_r := a + b * total_theta s in
  let wd := winding_direction s in
  let th := 0 + (1 - x) * (total_theta s - 0) in
  let r := a + b * th in
  let p := inbound_path s x in
  let d := inbound_derivative s x in
  Rsqr (fst p - 0) + Rsqr (snd p - (- wd * outer_r)) = Rsqr r /\
  fst d * (fst p - 0) + snd d * (snd p - (- wd * outer_r)) = 0 /\
  Rsqr (fst d) + Rsqr (snd d) = Rsqr r.
Proof.
  intros Hinit a b outer_r wd th r p d.
  pose proof (Spiral_init_wd_sq _ _ _ _ _ _ _ _ _ _ _ Hinit) as Hw. fold wd in Hw.
  unfold p, d, inbound_path, inbound_derivative, _spiral_out_path, _d_spiral_out_path.
  fold a. fold b. fold outer_r. fold wd. fold th. fold r. simpl fst. simpl snd.
  set (phi := th + - total_theta s).
  split; [|split].
  - replace (- (r * sin phi + 0) - wd * 0 - 0) with (r * (-1) * sin phi) by ring.
    replace (- (r * (- wd * cos phi) + wd * a) - wd * (- a + outer_r) - - wd * outer_r)
      with (r * wd * cos phi) by ring.
    rewrite (Rsqr_mult (r * (-1))), (Rsqr_mult r (-1)).
    replace (Rsqr (-1)) with 1 by (unfold Rsqr; ring).
    rewrite Rmult_1_r, <- Rsqr_mult. apply sin_cos_sq_weighted. exact Hw.
  - transitivity (r * r * sin phi * cos phi * (wd * wd - 1)); [ring|].
    rewrite Hw. ring.
  - replace (r * (wd * sin phi)) with (r * wd * sin phi) by ring.
    apply cos_sin_sq_weighted. exact Hw.
Qed.

Lemma outbound_arm_geometry_witness :
  exists s,
    Spiral_init (0, 0) 0 1 5 35 10 (PyStr "opposite") (PyStr "right") 0.50 100 = Ok s /\
    Rsqr (fst (outbound_path s (1 / 2)) - 0) +
    Rsqr (snd (outbound_path s (1 / 2)) - winding_direction s * (2 * min_bend_radius s)) =
    Rsqr (2 * min_bend_radius s +
          2 * (Spiral_width s + gap s) / (2 * PI) * (0 + 1 / 2 * (out_theta s - 0))).
Proof.
  eexists. split; [reflexivity|].
  apply (proj1 (outbound_arm_geometry (0, 0) 0 1 5 35 10 (PyStr "opposite") (PyStr "right")
                  0.50 100 _ (1 / 2) eq_refl)).
Defined.

Lemma inbound_arm_geometry_witness :
  exists s,
    Spiral_init (0, 0) 0 1 5 35 10 (PyStr "opposite") (PyStr "left") 0.50 100 = Ok s /\
    Rsqr (fst (inbound_path s (1 / 2)) - 0) +
    Rsqr (snd (inbound_path s (1 / 2)) -
          (- winding_direction s *
             (2 * min_bend_radius s + 2 * (Spiral_width s + gap s) / (2 * PI) * total_theta s))) =
    Rsqr (2 * min_bend_radius s +
          2 * (Spiral_width s + gap s) / (2 * PI) * (0 + (1 - 1 / 2) * (total_theta s - 0))).
Proof.
  eexists. split; [reflexivity|].
  apply (proj1 (inbound_arm_geometry (0, 0) 0 1 5 35 10 (PyStr "opposite") (PyStr "left")
                  0.50 100 _ (1 / 2) eq_refl)).
Defined.

Lemma generate_wg_mirror (s : Spiral) :
  wg_start (generate_wg (set_winding_direction s (- winding_direction s))) =
    wg_start (generate_wg s) /\
  Forall2 op_mirror (wg_ops (generate_wg s))
    (wg_ops (generate_wg (set_winding_direction s (- winding_direction s)))).
Proof.
  unfold generate_wg, set_winding_direction, Spiral_width. simpl.
  destruct (py_eq_str (output_type s) "single_outside"),
    (py_eq_str (output_type s) "single_inside"), (py_eq_str (output_type s) "inline"),
    (py_eq_str (output_type s) "inline_rel");
    simpl; split; try reflexivity;
    repeat first [ apply Forall2_nil | apply Forall2_cons ];
    simpl; repeat split; try ring;
    intro x; unfold mirror_pt, _spiral_out_path, _d_spiral_out_path; simpl; f_equal; ring.
Qed.

(** A spiral wound ["left"] is the reflection about the launch axis of the
    same spiral wound ["right"]: both waveguides start at the same port, and
    segment by segment the left one's path and derivative functions are the
    right one's with the y coordinate negated, its bend angles are negated,
    and its straight segments are the same. *)
Theorem left_spiral_mirrors_right (origin : R * R) (angle width gap_ mbr theta : R)
    (ot : PyVal) (sd : R) (sp : Z) (sr sl : Spiral) :
  Spiral_init origin angle width gap_ mbr theta ot (PyStr "right") sd sp = Ok sr ->
  Spiral_init origin angle width gap_ mbr theta ot (PyStr "left") sd sp = Ok sl ->
  wg_start (generate_wg sl) = wg_start (generate_wg sr) /\
  Forall2 op_mirror (wg_ops (generate_wg sr)) (wg_ops (generate_wg sl)).
Proof.
  intros Hr Hl.
  assert (E : sl = set_winding_direction sr (- winding_direction sr)).
  { revert Hr Hl. unfold Spiral_init. simpl. cbv zeta.
    match goal with
    | |- (match ?m with Ok _ => _ | Err _ => _ end = _ -> _) => destruct m
    end; [|discriminate].
    intros Hr Hl. injection Hr as <-. injection Hl as <-.
    unfold set_winding_direction. simpl. f_equal; ring. }
  subst sl. apply generate_wg_mirror.
Qed.

Lemma left_spiral_mirrors_right_witness :
  exists sr sl,
    Spiral_init (0, 0) 0 1 5 35 10 (PyStr "inline") (PyStr "right") 0.50 100 = Ok sr /\
    Spiral_init (0, 0) 0 1 5 35 10 (PyStr "inline") (PyStr "left") 0.50 100 = Ok sl /\
    Forall2 op_mirror (wg_ops (generate_wg sr)) (wg_ops (generate_wg sl)).
Proof.
  eexists. eexists. split; [reflexivity|]. split; [reflexivity|].
  apply (proj2 (left_spiral_mirrors_right (0, 0) 0 1 5 35 10 (PyStr "inline") 0.50 100
                  _ _ eq_refl eq_refl)).
Defined.

Lemma call_length_fn_ok_any (lf : LengthFn) (x x' a b y : R) :
  call_length_fn lf x a b = Ok y -> exists y', call_length_fn lf x' a b = Ok y'.
Proof.
  destruct lf as [f|v]; simpl; [intros _; eexists; reflexivity|].
  destruct (py_float_of v); [intros _; eexists; reflexivity | discriminate].
Qed.

Lemma arc_length_zero_here (a b : R) : _arc_length_integral 0 a b = 0.
Proof. unfold _arc_length_integral. ring. Qed.

Lemma arc_length_le (a b t1 t2 : R) : 0 < b -> t1 <= t2 ->
  _arc_length_integral t1 a b <= _arc_length_integral t2 a b.
Proof.
  intros Hb [Ht|Ht]; [left; apply arc_length_increasing_all; assumption|].
  subst; right; reflexivity.
Qed.

Lemma arc_length_unbounded (a b M : R) : 0 < b ->
  exists y, 0 < y /\ M < _arc_length_integral y a b.
Proof.
  intro Hb.
  set (I0 := _arc_length_indefinite_integral 0 a b).
  set (K := Rmax (Rmax 1 (a + 1)) (2 * b * (M + I0) + 1)).
  assert (HK1 : 1 <= K) by (unfold K; eapply Rle_trans; [apply Rmax_l | apply Rmax_l]).
  assert (HKa : a + 1 <= K) by (unfold K; eapply Rle_trans; [apply Rmax_r | apply Rmax_l]).
  assert (HKM : 2 * b * (M + I0) + 1 <= K) by (unfold K; apply Rmax_r).
  exists ((K - a) / b). split.
  - unfold Rdiv. apply Rmult_lt_0_compat; [lra | apply Rinv_0_lt_compat; exact Hb].
  - unfold _arc_length_integral. fold I0.
    unfold _arc_length_indefinite_integral at 1.
    rewrite Rplus_assoc with (r1 := sqrt _) (r2 := a).
    replace (a + b * ((K - a) / b)) with K by (field; lra).
    destruct (hyp_root_facts K b Hb) as (P & _ & L & _).
    set (sK := sqrt (Rsqr K + Rsqr b)) in *.
    assert (Hln : 0 < ln (sK + K)).
    { rewrite <- ln_1. apply ln_increasing; lra. }
    assert (Hq : K / (2 * b) <= sK * K / (2 * b)).
    { unfold Rdiv. apply Rmult_le_compat_r; [left; apply Rinv_0_lt_compat; lra | nra]. }
    assert (Hm : M + I0 < K / (2 * b)).
    { apply (Rmult_lt_reg_r (2 * b)); [lra|].
      unfold Rdiv. rewrite Rmult_assoc, Rinv_l, Rmult_1_r; lra. }
    assert (0 < 0.5 * b * ln (sK + K)) by (apply Rmult_lt_0_compat; lra).
    lra.
Qed.

(** For every output type the length function at [theta] is at least the
    arc length of one arm plus the length at [theta = 0]. *)
Lemma selected_length_above_arc (tag : PyVal) (a b t y0 y : R) :
  0 < b -> 0 <= t ->
  call_length_fn (length_fn_of tag) 0 a b = Ok y0 ->
  call_length_fn (length_fn_of tag) t a b = Ok y ->
  _arc_length_integral t a b + y0 <= y.
Proof.
  intros Hb Ht.
  assert (Hang : forall phi, _arc_length_integral t a b + _spiral_length_angle 0 a b phi <=
                             _spiral_length_angle t a b phi).
  { intro phi. unfold _spiral_length_angle. rewrite arc_length_zero_here.
    pose proof (arc_length_le a b (0 + phi) (t + phi) Hb ltac:(lra)). lra. }
  unfold length_fn_of.
  destruct (py_eq_str tag "inline");
    [simpl; intros E1 E2; injection E1 as <-; injection E2 as <-;
     unfold _spiral_length_inline; pose proof (Hang (0.5 * PI)); nra|].
  destruct (py_eq_str tag "inline_rel");
    [simpl; intros E1 E2; injection E1 as <-; injection E2 as <-;
     unfold _spiral_length_inline_rel, _spiral_length_inline;
     pose proof (Hang (0.5 * PI)); lra|].
  destruct (py_eq_str tag "opposite");
    [simpl; intros E1 E2; injection E1 as <-; injection E2 as <-; apply Hang|].
  destruct (is_single tag);
    [simpl; intros E1 E2; injection E1 as <-; injection E2 as <-;
     rewrite arc_length_zero_here; lra|].
  simpl. destruct (py_float_of tag); [|discriminate].
  intros E1 E2; injection E1 as <-; injection E2 as <-. apply Hang.
Qed.

(** The equation [fsolve] is asked to solve has exactly one solution when
    the target is above the length at [theta = 0]: for [b > 0] and every
    output type whose length function evaluates, there is one and only one
    [theta], and it is positive, with [length_function(theta, a, b) =
    target_length]. *)
Theorem solver_equation_unique_root (tag : PyVal) (a b L y0 : R) :
  0 < b ->
  call_length_fn (length_fn_of tag) 0 a b = Ok y0 -> y0 < L ->
  exists theta, 0 < theta /\ call_length_fn (length_fn_of tag) theta a b = Ok L /\
    (forall theta', call_length_fn (length_fn_of tag) theta' a b = Ok L -> theta' = theta).
Proof.
  intros Hb H0 HL.
  set (f := solver_objective (length_fn_of tag) L a b).
  assert (Hf0 : f 0 = y0 - L) by (unfold f, solver_objective; rewrite H0; reflexivity).
  assert (Hc : continuity f) by (intro x; apply solver_objective_continuous; exact Hb).
  destruct (arc_length_unbounded a b (L - y0) Hb) as (Y & HY & HYM).
  destruct (call_length_fn_ok_any _ 0 Y a b y0 H0) as [yY HyY].
  pose proof (selected_length_above_arc tag a b Y y0 yY Hb ltac:(lra) H0 HyY) as Habove.
  assert (HfY : f Y = yY - L) by (unfold f, solver_objective; rewrite HyY; reflexivity).
  destruct (IVT f 0 Y Hc HY ltac:(lra) ltac:(lra)) as (z & [Hz0 HzY] & Hz).
  destruct (call_length_fn_ok_any _ 0 z a b y0 H0) as [yz Hyz].
  assert (Hyz' : yz = L).
  { unfold f, solver_objective in Hz. rewrite Hyz in Hz. lra. }
  subst yz.
  exists z. split; [|split; [exact Hyz|]].
  - destruct Hz0 as [Hz0|Hz0]; [exact Hz0|]. subst z. lra.
  - intros t' Ht'.
    destruct (Rtotal_order t' z) as [Hlt|[Heq|Hgt]]; [|exact Heq|].
    + pose proof (selected_length_increasing tag a b t' z L L Hb Hlt Ht' Hyz). lra.
    + pose proof (selected_length_increasing tag a b z t' L L Hb Hgt Hyz Ht'). lra.
Qed.

Lemma solver_equation_unique_root_witness :
  exists theta, 0 < theta /\
    call_length_fn (length_fn_of (PyStr "single_inside")) theta 70 2 = Ok 2000.
Proof.
  destruct (solver_equation_unique_root (PyStr "single_inside") 70 2 2000 0
              ltac:(lra) ltac:(simpl; rewrite arc_length_zero_here; reflexivity) ltac:(lra))
    as (theta & H1 & H2 & _).
  exists theta. split; assumption.
Defined.




Ltac rabs_pi :=
  pose proof PI_RGT_0;
  repeat match goal with
         | |- context [Rabs ?x] =>
             first [ rewrite (Rabs_pos_eq x) by lra | rewrite (Rabs_left x) by lra ]
         end.

(** The length model of [make_at_port_with_length] against the waveguide
    [_generate] builds: with [a] and [b] as in [_spiral_theta], the length
    function of each output type is the inbound arc length at [theta], plus
    the lengths of the bends and straight segments [_generate] appends, plus
    the outbound arc length at [out_theta]; for [inline_rel] minus the
    direct path; a single variant has no fixed segment and one arc. *)
Theorem fixed_segments_match_length_model (origin : R * R) (angle width gap_ mbr theta : R)
    (ot wdv : PyVal) (sd : R) (sp : Z) (s : Spiral) :
  Spiral_init origin angle width gap_ mbr theta ot wdv sd sp = Ok s ->
  let a := 2 * mbr in
  let b := 2 * (width + gap_) / (2 * PI) in
  let fixed := fixed_segments_length (wg_ops (generate_wg s)) in
  (is_single ot = false -> py_eq_str ot "inline_rel" = false ->
     call_length_fn (length_fn_of ot) theta a b =
       Ok (_arc_length_integral theta a b + fixed + _arc_length_integral (out_theta s) a b)) /\
  (py_eq_str ot "inline_rel" = true ->
     call_length_fn (length_fn_of ot) theta a b =
       Ok (_arc_length_integral theta a b + fixed + _arc_length_integral (out_theta s) a b
           - (a + b * out_theta s + 0.5 * a))) /\
  (is_single ot = true ->
     fixed = 0 /\ call_length_fn (length_fn_of ot) theta a b = Ok (_arc_length_integral theta a b)).
Proof.
  intros H a b fixed.
  destruct (py_eq_str ot "inline") eqn:Ei.
  { apply py_eq_str_true in Ei; subst ot.
    unfold Spiral_init in H; simpl in H; injection H as <-.
    split; [|split]; intros Hc; try discriminate; [].
    intros _.
    unfold fixed, fixed_segments_length, generate_wg; simpl.
    destruct (py_eq_str wdv "left"); rabs_pi; f_equal;
      unfold _spiral_length_inline, _spiral_length_angle, a, b; unfold Spiral_width; simpl; lra. }
  destruct (py_eq_str ot "inline_rel") eqn:Er.
  { apply py_eq_str_true in Er; subst ot.
    unfold Spiral_init in H; simpl in H; injection H as <-.
    split; [|split]; intros Hc; try discriminate; try (intros Hc'; discriminate); [].
    unfold fixed, fixed_segments_length, generate_wg; simpl.
    destruct (py_eq_str wdv "left"); rabs_pi; f_equal;
      unfold _spiral_length_inline_rel, _spiral_length_inline, _spiral_length_angle, a, b;
      unfold Spiral_width; simpl; lra. }
  destruct (py_eq_str ot "opposite") eqn:Eo.
  { apply py_eq_str_true in Eo; subst ot.
    unfold Spiral_init in H; simpl in H; injection H as <-.
    split; [|split]; intros Hc; try discriminate; try (intros Hc'; discriminate); [].
    intros _.
    unfold fixed, fixed_segments_length, generate_wg; simpl.
    destruct (py_eq_str wdv "left"); rabs_pi; f_equal;
      unfold _spiral_length_angle, a, b; unfold Spiral_width; simpl; rewrite Rplus_0_r; lra. }
  destruct (py_eq_str ot "single_inside") eqn:Esi.
  { apply py_eq_str_true in Esi; subst ot.
    unfold Spiral_init in H; simpl in H; injection H as <-.
    split; [|split]; intros Hc; try discriminate; try (intros Hc'; discriminate); [].
    unfold fixed, fixed_segments_length, generate_wg; simpl.
    split; [lra | reflexivity]. }
  destruct (py_eq_str ot "single_outside") eqn:Eso.
  { apply py_eq_str_true in Eso; subst ot.
    unfold Spiral_init in H; simpl in H; injection H as <-.
    split; [|split]; intros Hc; try discriminate; try (intros Hc'; discriminate); [].
    unfold fixed, fixed_segments_length, generate_wg; simpl.
    split; [lra | reflexivity]. }
  unfold Spiral_init in H. rewrite Ei, Er, Eo, Esi, Eso in H. simpl in H.
  destruct ot as [str|y|z|bo|]; simpl in H; try discriminate; injection H as <-;
    (split; [|split]; intros Hc; try discriminate; try (intros Hc'; discriminate); []);
    intros _;
    unfold fixed, fixed_segments_length, generate_wg; simpl;
    destruct (py_eq_str wdv "left"); rabs_pi; f_equal;
      unfold _spiral_length_angle, a, b; unfold Spiral_width; simpl; lra.
Qed.

Lemma fixed_segments_match_length_model_witness :
  call_length_fn (length_fn_of (PyStr "inline")) 10 (2 * 5) (2 * (1 + 2) / (2 * PI)) =
    Ok (_arc_length_integral 10 (2 * 5) (2 * (1 + 2) / (2 * PI)) +
        fixed_segments_length (wg_ops (generate_wg
          {| _origin_port := mkPort (0, 0) 0 1; gap := 2; min_bend_radius := 5;
             total_theta := 10; _wg := None; sample_points := 100%Z;
             sample_distance := 0.5; output_type := PyStr "inline";
             winding_direction := 1; out_theta := 10 + 0.5 * PI |})) +
        _arc_length_integral (10 + 0.5 * PI) (2 * 5) (2 * (1 + 2) / (2 * PI))).
Proof.
  destruct (fixed_segments_match_length_model (0, 0) 0 1 2 5 10 (PyStr "inline")
              (PyStr "right") 0.5 100%Z _ eq_refl) as [H _].
  exact (H eq_refl eq_refl).
Defined.

Lemma out_path_fst_dpl (a b max_theta min_theta theta_offset direction t : R) :
  derivable_pt_lim
    (fun u => fst (_spiral_out_path u a b max_theta min_theta theta_offset direction)) t
    ((max_theta - min_theta) *
       (fst (_d_spiral_out_path t a b max_theta min_theta theta_offset direction) +
        b * sin (min_theta + t * (max_theta - min_theta) + theta_offset))).
Proof.
  unfold _spiral_out_path, _d_spiral_out_path. simpl fst.
  eapply dpl_l.
  - apply dpl_plus; [|apply dpl_const].
    apply (dpl_mult (fun u => a + b * (min_theta + u * (max_theta - min_theta)))
                    (fun u => sin (min_theta + u * (max_theta - min_theta) + theta_offset))).
    + apply dpl_arm_radius.
    + apply dpl_sin, dpl_arm_angle.
  - cbv beta. ring.
Qed.

Lemma out_path_snd_dpl (a b max_theta min_theta theta_offset direction t : R) :
  derivable_pt_lim
    (fun u => snd (_spiral_out_path u a b max_theta min_theta theta_offset direction)) t
    ((max_theta - min_theta) *
       (snd (_d_spiral_out_path t a b max_theta min_theta theta_offset direction) +
        b * (- direction * cos (min_theta + t * (max_theta - min_theta) + theta_offset)))).
Proof.
  unfold _spiral_out_path, _d_spiral_out_path. simpl snd.
  eapply dpl_l.
  - apply dpl_plus; [|apply dpl_const].
    apply (dpl_mult (fun u => a + b * (min_theta + u * (max_theta - min_theta)))
                    (fun u => - direction * cos (min_theta + u * (max_theta - min_theta) + theta_offset))).
    + apply dpl_arm_radius.
    + apply dpl_mult; [apply dpl_const|]. apply dpl_cos, dpl_arm_angle.
  - cbv beta. ring.
Qed.

Lemma dpl_opp (f : R -> R) (x l : R) :
  derivable_pt_lim f x l -> derivable_pt_lim (fun t => - f t) x (- l).
Proof. intro H. exact (derivable_pt_lim_opp f x l H). Qed.

Lemma dpl_reverse (g : R -> R) (x l : R) :
  derivable_pt_lim g (1 - x) l -> derivable_pt_lim (fun u => g (1 - u)) x (- l).
Proof.
  intro H. eapply dpl_l.
  - apply (dpl_comp (fun u => 1 - u) g); [apply dpl_minus; [apply dpl_const | apply dpl_id] | exact H].
  - ring.
Qed.

(** Orientation of the two arms [Spiral._generate] adds: the inbound arm is
    [_spiral_out_path] run backwards ([1-x]) and negated, and its derivative
    function is [_d_spiral_out_path] at [1-x] with no sign change; the two
    sign changes cancel, so for both arms the derivative in [x] of the path
    is the angle span times the derivative function given with it, plus the
    radial term [b * (sin, -winding_direction * cos)] of the angle. *)
Theorem arm_derivatives_oriented (s : Spiral) (x : R) :
  let b := 2 * (Spiral_width s + gap s) / (2 * PI) in
  let wd := winding_direction s in
  let T := total_theta s in
  let phi_in := 0 + (1 - x) * (T - 0) + - T in
  let phi_out := 0 + x * (out_theta s - 0) + 0 in
  derivable_pt_lim (fun u => fst (inbound_path s u)) x
    (T * (fst (inbound_derivative s x) + b * sin phi_in)) /\
  derivable_pt_lim (fun u => snd (inbound_path s u)) x
    (T * (snd (inbound_derivative s x) + b * (- wd * cos phi_in))) /\
  derivable_pt_lim (fun u => fst (outbound_path s u)) x
    (out_theta s * (fst (outbound_derivative s x) + b * sin phi_out)) /\
  derivable_pt_lim (fun u => snd (outbound_path s u)) x
    (out_theta s * (snd (outbound_derivative s x) + b * (- wd * cos phi_out))).
Proof.
  intros b wd T phi_in phi_out.
  unfold inbound_path, inbound_derivative, outbound_path, outbound_derivative.
  cbv zeta. simpl fst. simpl snd.
  split; [|split; [|split]].
  - eapply dpl_l.
    + apply dpl_minus; [|apply dpl_const].
      apply dpl_opp.
      apply (dpl_reverse (fun t => fst (_spiral_out_path t (2 * min_bend_radius s) b T 0 (- T) wd))).
      apply out_path_fst_dpl.
    + unfold phi_in, T, b, wd, _d_spiral_out_path; simpl; ring.
  - eapply dpl_l.
    + apply dpl_minus; [|apply dpl_const].
      apply dpl_opp.
      apply (dpl_reverse (fun t => snd (_spiral_out_path t (2 * min_bend_radius s) b T 0 (- T) wd))).
      apply out_path_snd_dpl.
    + unfold phi_in, T, b, wd, _d_spiral_out_path; simpl; ring.
  - eapply dpl_l; [apply (out_path_fst_dpl _ _ _ _ _ wd)|]. unfold phi_out, b, wd, _d_spiral_out_path; simpl; ring.
  - eapply dpl_l; [apply out_path_snd_dpl|]. unfold phi_out, b, wd, _d_spiral_out_path; simpl; ring.
Qed.

Lemma pitch_nonneg (width gap_ : R) : 0 <= width + gap_ -> 0 <= 2 * (width + gap_) / (2 * PI).
Proof.
  intro H. pose proof PI_RGT_0. unfold Rdiv.
  apply Rmult_le_pos; [lra|]. left. apply Rinv_0_lt_compat. lra.
Qed.

(** The fixed segments of [Spiral._generate]: for a non-negative minimum bend
    radius, pitch and angle, every bend has radius [min_bend_radius], the
    straight segment of the inline variants is at least [min_bend_radius]
    long, and the bend angles sum to zero (the two centre bends cancel)
    except for the final quarter turn [-0.5 * winding_direction * pi] of the
    inline variants. *)
Theorem generate_wg_fixed_segments (origin : R * R) (angle width gap_ mbr theta : R)
    (ot wdv : PyVal) (sd : R) (sp : Z) (s : Spiral) :
  Spiral_init origin angle width gap_ mbr theta ot wdv sd sp = Ok s ->
  0 <= mbr -> 0 <= width + gap_ -> 0 <= theta ->
  Forall (segment_bounds mbr) (wg_ops (generate_wg s)) /\
  bend_angle_sum (wg_ops (generate_wg s)) =
    (if py_eq_str ot "inline" || py_eq_str ot "inline_rel"
     then - 0.5 * winding_direction s * PI else 0).
Proof.
  intros H Hm Hwg Ht.
  pose proof (pitch_nonneg width gap_ Hwg) as Hb.
  unfold Spiral_init in H.
  destruct (py_eq_str ot "inline") eqn:Ei;
  [| destruct (py_eq_str ot "inline_rel") eqn:Er;
  [| destruct (py_eq_str ot "opposite") eqn:Eo;
  [| destruct (py_eq_str ot "single_inside") eqn:Esi;
  [| destruct (py_eq_str ot "single_outside") eqn:Eso]]]].
  1-5: first [ apply py_eq_str_true in Ei | apply py_eq_str_true in Er
             | apply py_eq_str_true in Eo | apply py_eq_str_true in Esi
             | apply py_eq_str_true in Eso ]; subst ot;
       simpl in H; injection H as <-.
  6: simpl in H;
     destruct ot as [str|y|z|bo|]; simpl in H; try discriminate; injection H as <-.
  all: unfold generate_wg, bend_angle_sum; simpl; split;
       [ repeat first [apply Forall_nil | apply Forall_cons]; simpl;
         first [ exact I | reflexivity | unfold Spiral_width; simpl; nra ]
       | ring ].
Qed.

Lemma generate_wg_fixed_segments_witness :
  exists s, Spiral_init (0, 0) 0 1 2 5 10 (PyStr "inline") (PyStr "left") 0.5 100 = Ok s /\
    Forall (segment_bounds 5) (wg_ops (generate_wg s)) /\
    bend_angle_sum (wg_ops (generate_wg s)) = - 0.5 * winding_direction s * PI.
Proof.
  eexists. split; [reflexivity|].
  exact (generate_wg_fixed_segments (0, 0) 0 1 2 5 10 (PyStr "inline") (PyStr "left") 0.5 100 _
           eq_refl ltac:(lra) ltac:(lra) ltac:(lra)).
Defined.
